(** * Create2_Library: the fixed-rate [CustomTimer] and the tethered-drive
    key handlers, embedded from [createlib/custom_timer.py] and
    [Create2_proj.py]. *)

From Stdlib Require Import ZArith QArith Qround Bool String Ascii DecimalString Lia.
From stdpp Require Import base option list.

Local Open Scope Z_scope.

(** ** Python numbers

    [time.time()] returns a float and [interval] is whatever number the caller
    passes (an int, or the float [0.5] in the application).  The timer only
    adds, subtracts, compares with [0] and tests truthiness, so the model is
    written once over this interface. *)

Class PyNum (T : Type) := {
  num_add : T -> T -> T;          (* x + y *)
  num_sub : T -> T -> T;          (* x - y *)
  num_zero : T;                   (* the literal 0 *)
  num_ltb : T -> T -> bool;       (* x < y *)
  num_is_zero : T -> bool         (* x == 0, i.e. [not x] on a number *)
}.

#[export] Instance PyNum_Z : PyNum Z := {|
  num_add := Z.add; num_sub := Z.sub; num_zero := 0;
  num_ltb := Z.ltb; num_is_zero := Z.eqb 0 |}.

(** Floats idealised as exact rationals: sums of floats that Python rounds
    (0.1 + 0.2) are exact here, so nothing below is stated about the value
    of such a sum; the application's interval, 0.5, is exact in both. *)
#[export] Instance PyNum_Q : PyNum Q := {|
  num_add := Qplus; num_sub := Qminus; num_zero := 0%Q;
  num_ltb := fun x y => negb (Qle_bool y x);
  num_is_zero := fun x => Qeq_bool x 0%Q |}.

(** [max(0, x)]: the builtin keeps its first argument unless a later one is
    strictly greater. *)
Definition py_max0 {T} `{PyNum T} (x : T) : T :=
  if num_ltb num_zero x then x else num_zero.

(** ** [threading.Timer]

    A [Timer(delay, f)] thread sleeps for [delay] and then calls [f], unless
    [cancel()] was called while it was still sleeping; [cancel()] on a thread
    that already woke up has no effect. *)

Inductive thread_state := Waiting | Cancelled | Running | Finished.

#[export] Instance thread_state_eq_dec : EqDecision thread_state.
Proof. solve_decision. Defined.

Record Timer (T : Type) := mkTimer { t_delay : T; t_state : thread_state }.
Arguments mkTimer {T} _ _.
Arguments t_delay {T} _.
Arguments t_state {T} _.

Definition set_state {T} (st : thread_state) (t : Timer T) : Timer T :=
  mkTimer (t_delay t) st.

(** [Timer.cancel()] *)
Definition cancel {T} (t : Timer T) : Timer T :=
  match t_state t with
  | Waiting => set_state Cancelled t
  | _ => t
  end.

(** ** [class CustomTimer]

    The callback ([function], [args], [kwargs]) is not part of the record:
    the timer never inspects it, and how a call of it ends is given with the
    event that ends it. *)

Record CustomTimer (T : Type) := mkCustomTimer {
  interval : T;
  repeat : bool;
  _timer : option nat;       (* handle of a Timer thread, or None *)
  _stopped : bool;
  next_call : option T
}.
Arguments mkCustomTimer {T} _ _ _ _ _.
Arguments interval {T} _.
Arguments repeat {T} _.
Arguments _timer {T} _.
Arguments _stopped {T} _.
Arguments next_call {T} _.

(** The object together with the Timer threads it has created; a thread's
    handle is its position in [threads]. *)
Record World (T : Type) := mkWorld {
  self : CustomTimer T;
  threads : list (Timer T)
}.
Arguments mkWorld {T} _ _.
Arguments self {T} _.
Arguments threads {T} _.

Section CustomTimer.
Context {T : Type} `{PyNum T}.

(** The new value of [self.next_call] in [start]:
    [if not self.next_call: ... = now + self.interval
     else: self.next_call += self.interval]. *)
Definition next_deadline (now : T) (s : CustomTimer T) : T :=
  match next_call s with
  | None => num_add now (interval s)        (* [not None] *)
  | Some d =>
      if num_is_zero d
      then num_add now (interval s)         (* [not d] holds for d == 0 too *)
      else num_add d (interval s)
  end.

(** [start(self, from_run=False)]; [now] is the value [time.time()]
    returns.  The whole body runs under [self._lock]. *)
Definition start (from_run : bool) (now : T) (w : World T) : World T :=
  let s := self w in
  if from_run || _stopped s then
    let nc := next_deadline now s in
    let delay := py_max0 (num_sub nc now) in
    mkWorld
      (mkCustomTimer (interval s) (repeat s)
                     (Some (length (threads w))) false (Some nc))
      (threads w ++ [mkTimer delay Waiting])
  else w.

(** [stop(self)], also under the lock. *)
Definition stop (w : World T) : World T :=
  let s := self w in
  mkWorld
    (mkCustomTimer (interval s) (repeat s) None true None)
    (match _timer s with
     | Some h => alter cancel h (threads w)
     | None => threads w
     end).

(** [__init__(self, interval, function, *args, autostart=True, repeat=True)] *)
Definition init (itv : T) (autostart rep : bool) (now : T) : World T :=
  let w := mkWorld (mkCustomTimer itv rep None true None) [] in
  if autostart then start false now w else w.

(** How the callback ended. *)
Inductive outcome := Returned | Raised.

(** The [finally] clause of [_run]. *)
Definition _run_finally (now : T) (w : World T) : World T :=
  if repeat (self w) then start true now w else stop w.

(** [_run(self)] from the point where [self.function(...)] has ended with
    outcome [o]: the [finally] clause runs, then an exception, if any,
    continues to propagate. *)
Definition _run (o : outcome) (now : T) (w : World T) : World T * outcome :=
  (_run_finally now w, o).

(** *** Interleavings

    [start] and [stop] are atomic (they hold the lock throughout); the
    callback runs outside the lock, so other calls can happen between the
    moment a thread wakes up and the moment its callback ends. *)
Inductive event :=
| CallStart (now : T)                        (* an external start() *)
| CallStop                                   (* an external stop() *)
| Fire (h : nat)                             (* thread h wakes up and enters _run *)
| Return (h : nat) (o : outcome) (now : T).  (* its callback ends *)

Definition state_of (h : nat) (w : World T) : option thread_state :=
  t_state <$> threads w !! h.

Definition mark (h : nat) (st : thread_state) (w : World T) : World T :=
  mkWorld (self w) (alter (set_state st) h (threads w)).

Definition step (e : event) (w : World T) : option (World T) :=
  match e with
  | CallStart now => Some (start false now w)
  | CallStop => Some (stop w)
  | Fire h =>
      match state_of h w with
      | Some Waiting => Some (mark h Running w)
      | _ => None
      end
  | Return h o now =>
      match state_of h w with
      | Some Running => Some (mark h Finished (fst (_run o now w)))
      | _ => None
      end
  end.

Fixpoint run (es : list event) (w : World T) : option (World T) :=
  match es with
  | [] => Some w
  | e :: es' =>
      match step e w with
      | Some w' => run es' w'
      | None => None
      end
  end.

(** Handles of the threads that are armed and will still fire. *)
Definition waiting (w : World T) : list nat :=
  filter (fun h => state_of h w = Some Waiting) (seq 0 (length (threads w))).

(** [n] firings in a row, by threads [k], [k+1], ..., each one running to the
    end of its callback ([os i] says how it ended, [nows i] is the clock when
    it did), with no external call in between. *)
Fixpoint firings (k n : nat) (os : nat -> outcome) (nows : nat -> T) : list event :=
  match n with
  | O => []
  | S n' => Fire k :: Return k (os k) (nows k) :: firings (S k) n' os nows
  end.

Definition is_call_start (e : event) : bool :=
  match e with CallStart _ => true | _ => false end.

Definition is_fire (e : event) : bool :=
  match e with Fire _ => true | _ => false end.

End CustomTimer.

(** The state between two firings of an undisturbed repeating timer that was
    started at [t0] and whose [k] earlier threads have finished. *)
Definition between_firings (itv t0 : Z) (k : nat) (w : World Z) : Prop :=
  repeat (self w) = true /\
  interval (self w) = itv /\
  _stopped (self w) = false /\
  _timer (self w) = Some k /\
  length (threads w) = S k /\
  next_call (self w) = Some (t0 + (Z.of_nat k + 1) * itv) /\
  (forall h, state_of h w = Some Waiting <-> h = k).

(** ** [Create2_proj.py]: the application state and its handlers *)

Definition VELOCITYCHANGE : Z := 200.
Definition ROTATIONCHANGE : Z := 300.

(** [str.upper()] on ASCII text, which is what the key names Tk delivers
    are (Up, space, p, Escape, ...): the letters a-z move to A-Z and every
    other character stays.  Outside ASCII [str.upper()] does more (it maps
    U+017F to S, for one), so statements about arbitrary keysyms are made
    for [ascii_only] ones. *)
Definition upper_ascii (c : ascii) : ascii :=
  let n := nat_of_ascii c in
  if ((97 <=? n) && (n <=? 122))%nat then ascii_of_nat (n - 32) else c.

Fixpoint upper (s : string) : string :=
  match s with
  | EmptyString => EmptyString
  | String c s' => String (upper_ascii c) (upper s')
  end.

(** The keysym holds ASCII characters only. *)
Fixpoint ascii_only (s : string) : bool :=
  match s with
  | EmptyString => true
  | String c s' => (nat_of_ascii c <? 128)%nat && ascii_only s'
  end.

(** [x / 2] on ints is true division; the float result is idealised as the
    exact rational.  Python agrees as long as the numbers stay far below
    [2^53] in magnitude (beyond that the float rounds, and for huge ints the
    division raises [OverflowError]): the statements below bound the axes
    by [2^50]. *)
Definition py_truediv (a b : Z) : Q := (inject_Z a / inject_Z b)%Q.

(** [int(x)] on a float: truncation toward zero. *)
Definition py_int (q : Q) : Z := Z.quot (Qnum q) (Z.pos (Qden q)).

(** The attribute [self.robot]: [None] until a connection is made, a
    [cl.Create2] object afterwards, and no attribute at all once
    [del self.robot] has run. *)
Inductive robot_ref := NoAttr | PyNone | Create2 (port : string).

(** The attributes of the application object, and [timers]: the
    [CustomTimer] objects created so far.  [sensor_poll_timer] refers to one
    of them by position; an object the application has dropped stays alive as
    long as its Timer threads do. *)
Record App := mkApp {
  robot : robot_ref;
  velocity : Z;
  rotation : Z;
  sensor_poll_timer : option nat;
  sensor_polling_active : bool;
  timers : list (World Q)
}.

(** Method calls on the [Create2] object: each one drives the serial link.
    The class itself lives in [createlib/create_robot.py]; a call is recorded,
    not interpreted. *)
Inductive robot_call :=
| r_start | r_safe | r_full | r_clean | r_reset
| r_createSong (n : Z) (song : list Z)
| r_playSong (n : Z)
| r_get_sensors
| r_drive_direct (vl vr : Z).

Inductive effect :=
| ShowInfo (title msg : string)      (* messagebox.showinfo *)
| AskYesNo (title msg : string)      (* messagebox.askyesno *)
| RobotIO (c : robot_call)
| LogInfo (msg : string)             (* logging.info *)
| Destroy.                           (* self.destroy() *)

Inductive exn := AttributeError.

Inductive res (A : Type) := Ok (a : A) | Exc (e : exn).
Arguments Ok {A} _.
Arguments Exc {A} _.

(** What the surroundings supply to a handler. *)
Record Env := mkEnv {
  clock : Q;               (* time.time() *)
  confirm_quit : bool;     (* answer to the askyesno dialog *)
  sensors : string         (* _format_sensor_data of what get_sensors() returns *)
}.

(** Handlers: state passing, a log of effects, and exceptions. *)
Definition M (A : Type) : Type := App -> res A * App * list effect.

#[export] Instance M_ret : MRet M := fun A x a => (Ok x, a, []).

#[export] Instance M_bind : MBind M := fun A B f m a =>
  match m a with
  | (Ok x, a', out) =>
      match f x a' with
      | (r, a'', out') => (r, a'', out ++ out')
      end
  | (Exc e, a', out) => (Exc e, a', out)
  end.

Definition emit (e : effect) : M unit := fun a => (Ok tt, a, [e]).
Definition raise {A} (e : exn) : M A := fun a => (Exc e, a, []).
Definition get : M App := fun a => (Ok a, a, []).
Definition put (a : App) : M unit := fun _ => (Ok tt, a, []).

(** Reading [self.robot]. *)
Definition get_robot : M robot_ref :=
  a ← get;
  match robot a with
  | NoAttr => raise AttributeError
  | r => mret r
  end.

(** [self.robot.<method>(...)]: [None] has no such attribute. *)
Definition call_robot (c : robot_call) : M unit :=
  r ← get_robot;
  match r with
  | Create2 _ => emit (RobotIO c)
  | _ => raise AttributeError
  end.

(** [@require_robot] *)
Definition require_robot (func : M unit) : M unit :=
  r ← get_robot;
  match r with
  | PyNone => emit (ShowInfo "Error" "Robot Not Connected!")
  | _ => func
  end.

Definition set_velocity (v : Z) : M unit :=
  a ← get;
  put (mkApp (robot a) v (rotation a)
             (sensor_poll_timer a) (sensor_polling_active a) (timers a)).

Definition set_rotation (r : Z) : M unit :=
  a ← get;
  put (mkApp (robot a) (velocity a) r
             (sensor_poll_timer a) (sensor_polling_active a) (timers a)).

Definition set_sensor_poll_timer (t : option nat) : M unit :=
  a ← get;
  put (mkApp (robot a) (velocity a) (rotation a)
             t (sensor_polling_active a) (timers a)).

Definition set_sensor_polling_active (b : bool) : M unit :=
  a ← get;
  put (mkApp (robot a) (velocity a) (rotation a)
             (sensor_poll_timer a) b (timers a)).

(** [del self.robot] *)
Definition del_robot : M unit :=
  a ← get;
  put (mkApp NoAttr (velocity a) (rotation a)
             (sensor_poll_timer a) (sensor_polling_active a) (timers a)).

(** [t.stop()] on the timer object [t]. *)
Definition timer_stop (t : nat) : M unit :=
  a ← get;
  put (mkApp (robot a) (velocity a) (rotation a)
             (sensor_poll_timer a) (sensor_polling_active a)
             (alter stop t (timers a))).

(** [CustomTimer(itv, ..., repeat=rep)] with the default [autostart=True];
    returns the new object. *)
Definition timer_new (env : Env) (itv : Q) (rep : bool) : M nat :=
  a ← get;
  put (mkApp (robot a) (velocity a) (rotation a)
             (sensor_poll_timer a) (sensor_polling_active a)
             (timers a ++ [init itv true rep (clock env)]));;
  mret (length (timers a)).

Definition when_some {A} (o : option A) (f : A -> M unit) : M unit :=
  match o with Some x => f x | None => mret tt end.

(** [_set_motion(self, velocity=None, rotation=None)] *)
Definition _set_motion (velocity_arg rotation_arg : option Z) : M unit :=
  require_robot (
    when_some velocity_arg set_velocity;;
    when_some rotation_arg set_rotation;;
    a ← get;
    let vr := py_int (inject_Z (velocity a) + py_truediv (rotation a) 2)%Q in
    let vl := py_int (inject_Z (velocity a) - py_truediv (rotation a) 2)%Q in
    call_robot (r_drive_direct vl vr)).

(** [_beep_song(self)] *)
Definition _beep_song : M unit :=
  require_robot (
    call_robot (r_createSong 3 [64; 16]);;
    call_robot (r_playSong 3)).

(** [toggle_sensor_polling(self)].  In the constructor call
    [CustomTimer(0.5, self.poll_sensors, False, repeat=True)] the positional
    [False] lands in [*args] (it is the callback's [show_log]); [autostart]
    is keyword-only and keeps its default [True]. *)
Definition toggle_sensor_polling (env : Env) : M unit :=
  require_robot (
    a ← get;
    if sensor_polling_active a then
      match sensor_poll_timer a with
      | Some t => timer_stop t;; set_sensor_poll_timer None
      | None => mret tt
      end;;
      set_sensor_polling_active false;;
      emit (LogInfo "Sensor polling stopped.")
    else
      t ← timer_new env (1 # 2)%Q true;
      set_sensor_poll_timer (Some t);;
      set_sensor_polling_active true;;
      emit (LogInfo "Sensor polling started.")).

(** [poll_sensors(self, show_log=False)]; the refresh of the text widget is
    display only and is left out. *)
Definition poll_sensors (env : Env) (show_log : bool) : M unit :=
  require_robot (
    call_robot r_get_sensors;;
    if show_log then emit (LogInfo (sensors env)) else mret tt).

(** [on_quit(self)] *)
Definition on_quit (env : Env) : M unit :=
  emit (AskYesNo "Really?" "Are you sure you want to quit?");;
  if confirm_quit env then
    r ← get_robot;
    match r with
    | Create2 _ => del_robot          (* [if self.robot: del self.robot] *)
    | _ => mret tt
    end;;
    emit Destroy
  else mret tt.

(** The dict [key_mapping] of [handle_keypress]. *)
Definition key_mapping (env : Env) : list (string * M unit) :=
  [ ("P", call_robot r_start);
    ("S", call_robot r_safe);
    ("F", call_robot r_full);
    ("C", call_robot r_clean);
    ("R", call_robot r_reset);
    ("SPACE", _beep_song);
    ("B", call_robot r_get_sensors;; emit (LogInfo (sensors env)));
    ("O", toggle_sensor_polling env);
    ("UP", _set_motion (Some VELOCITYCHANGE) None);
    ("DOWN", _set_motion (Some (- VELOCITYCHANGE)) None);
    ("LEFT", _set_motion None (Some ROTATIONCHANGE));
    ("RIGHT", _set_motion None (Some (- ROTATIONCHANGE)));
    ("ESCAPE", on_quit env) ]%string.

Fixpoint lookup_key (key : string) (m : list (string * M unit)) : option (M unit) :=
  match m with
  | [] => None
  | (k, f) :: m' => if String.eqb key k then Some f else lookup_key key m'
  end.

(** [handle_keypress(self, event)], on [event.keysym]. *)
Definition handle_keypress (env : Env) (keysym : string) : M unit :=
  let key := upper keysym in
  match lookup_key key (key_mapping env) with
  | Some f => f
  | None => mret tt
  end.

(** [handle_keyrelease(self, event)] *)
Definition handle_keyrelease (keysym : string) : M unit :=
  let key := upper keysym in
  if (String.eqb key "UP" || String.eqb key "DOWN")%string then
    _set_motion (Some 0) None
  else if (String.eqb key "LEFT" || String.eqb key "RIGHT")%string then
    _set_motion None (Some 0)
  else mret tt.

(** [TetheredDriveApp.__init__] *)
Definition new_app : App := mkApp PyNone 0 0 None false [].

(** ** Predicates on runs of the timer *)

(** How often thread [h] wakes up in a sequence of events. *)
Fixpoint fire_count {T} (h : nat) (es : list (@event T)) : nat :=
  match es with
  | [] => O
  | Fire h' :: es' => (if Nat.eqb h h' then 1 else 0) + fire_count h es'
  | _ :: es' => fire_count h es'
  end.

(** No thread is sleeping and no callback is running. *)
Definition quiescent {T} (w : World T) : Prop :=
  forall h, state_of h w <> Some Waiting /\ state_of h w <> Some Running.

(** The three fields [stop] clears and [start] sets go together. *)
Definition consistent {T} (w : World T) : Prop :=
  if _stopped (self w)
  then _timer (self w) = None /\ next_call (self w) = None
  else exists h, _timer (self w) = Some h /\
                 (h < length (threads w))%nat /\
                 is_Some (next_call (self w)).

(** ** [Create2_proj.py]: connecting *)

(** [str(n)] for a non-negative int. *)
Definition py_str (n : nat) : string := NilEmpty.string_of_uint (Nat.to_uint n).

(** What the machine and the operator supply to [on_connect]. *)
Record ConnEnv := mkConnEnv {
  platform : string;                  (* sys.platform *)
  glob : string -> list string;       (* glob.glob *)
  opens : string -> bool;             (* serial.Serial(port) succeeds *)
  selected_port : option string;      (* dialog.selected_port once the dialog closes *)
  create2_fails : string -> option string
    (* cl.Create2(port=port, baud=115200): None when it returns, or str(e)
       of the exception it raises *)
}.

(** The first half of [_get_serial_ports]: the names to probe, or [None]
    for [raise EnvironmentError('Unsupported platform')]. *)
Definition candidate_ports (ce : ConnEnv) : option (list string) :=
  let p := platform ce in
  if String.prefix "win" p then
    Some (map (fun i => "COM" ++ py_str (i + 1))%string (seq 0 256))
  else if String.prefix "linux" p || String.prefix "cygwin" p then
    Some (glob ce "/dev/tty[A-Za-z]*")
  else if String.prefix "darwin" p then
    Some (glob ce "/dev/tty.*")
  else None.

(** [_get_serial_ports(self)]: the candidates that can be opened. *)
Definition _get_serial_ports (ce : ConnEnv) : option (list string) :=
  match candidate_ports ce with
  | Some ports => Some (List.filter (opens ce) ports)
  | None => None
  end.

(** What [on_connect] shows and logs beyond the effects of the key
    handlers. *)
Inductive ui :=
| Base (e : effect)
| ShowError (title msg : string)     (* messagebox.showerror *)
| LogWarning (msg : string)          (* logging.warning *)
| LogError (msg : string).           (* logging.error *)

Inductive conn_exn := ConnAttributeError | UnboundLocalError.

Definition set_robot (r : robot_ref) (a : App) : App :=
  mkApp r (velocity a) (rotation a)
        (sensor_poll_timer a) (sensor_polling_active a) (timers a).

(** The tail of the [try] block of [on_connect], from
    [self.robot = cl.Create2(port=port, baud=115200)] on, with its [except]
    clause; [port] is bound here. *)
Definition connect_to (ce : ConnEnv) (port : string) (a : App)
  : option conn_exn * App * list ui :=
  match create2_fails ce port with
  | None =>
      (None, set_robot (Create2 port) a,
       [Base (ShowInfo "Connected" ("Connected successfully to " ++ port ++ "!"));
        Base (LogInfo ("Connected to robot on " ++ port))])
  | Some msg =>
      (None, a,
       [LogError ("Failed to connect: " ++ msg);
        ShowError "Connection Failed" ("Couldn't connect to " ++ port)])
  end%string.

(** [on_connect(self)].  When [_get_serial_ports] raises, the [except]
    clause logs the error and then formats [port], which was never
    assigned. *)
Definition on_connect (ce : ConnEnv) (a : App)
  : option conn_exn * App * list ui :=
  match robot a with
  | NoAttr => (Some ConnAttributeError, a, [])
  | Create2 _ =>
      (None, a, [Base (ShowInfo "Oops" "You're already connected to the robot!")])
  | PyNone =>
      match _get_serial_ports ce with
      | None =>
          (Some UnboundLocalError, a,
           [LogError "Failed to connect: Unsupported platform"])
      | Some [] =>
          (None, a,
           [ShowError "No Devices"
                      "No serial devices found. Please check your connection."])
      | Some [port] =>
          match connect_to ce port a with
          | (r, a', out) =>
              (r, a',
               Base (LogInfo ("Only one port found: " ++ port ++
                              ". Connecting automatically.")) :: out)
          end
      | Some _ =>
          match selected_port ce with
          | Some (String c s) => connect_to ce (String c s) a
          | _ => (None, a, [LogWarning "Connection cancelled by user."])
          end
      end
  end%string.

(** ** Predicates on the application state *)

Definition state_after {A} (x : res A * App * list effect) : App := snd (fst x).
Definition effects_of {A} (x : res A * App * list effect) : list effect := snd x.

Definition is_robot_io (e : effect) : bool :=
  match e with RobotIO _ => true | _ => false end.

(** The axis values the keys can produce. *)
Definition motion_ok (a : App) : Prop :=
  (velocity a = 0 \/ velocity a = VELOCITYCHANGE \/ velocity a = - VELOCITYCHANGE) /\
  (rotation a = 0 \/ rotation a = ROTATIONCHANGE \/ rotation a = - ROTATIONCHANGE).

(** The polling flag and the timer reference agree. *)
Definition poll_ok (a : App) : Prop :=
  match sensor_poll_timer a with
  | Some t => sensor_polling_active a = true /\ (t < length (timers a))%nat
  | None => sensor_polling_active a = false
  end.

(** A drive command agrees with the axes it was derived from and stays
    within the speeds the keys can ask for. *)
Definition drive_ok (x : res unit * App * list effect) : Prop :=
  forall l r, In (RobotIO (r_drive_direct l r)) (effects_of x) ->
    l + r = 2 * velocity (state_after x) /\
    r - l = rotation (state_after x) /\
    -350 <= l <= 350 /\ -350 <= r <= 350.

Definition motion_result_ok (x : res unit * App * list effect) : Prop :=
  motion_ok (state_after x) /\ drive_ok x.

Definition poll_result_ok (a : App) (x : res unit * App * list effect) : Prop :=
  poll_ok (state_after x) /\
  (length (timers a) <= length (timers (state_after x)))%nat.

(** * Properties of [CustomTimer] *)

Section TimerFacts.
Context {T : Type} `{PyNum T}.
Implicit Types (w : World T) (h : nat) (now d : T).

Lemma filter_agree {A} (P Q : A -> Prop)
  `{forall x, Decision (P x)} `{forall x, Decision (Q x)} (l : list A) :
  (forall x, x ∈ l -> P x <-> Q x) -> filter P l = filter Q l.
Proof.
  induction l as [|x l IH]; intros HPQ; [reflexivity|].
  rewrite !filter_cons.
  assert (HQ : P x <-> Q x) by (apply HPQ; left).
  rewrite IH by (intros y Hy; apply HPQ; by right).
  destruct (decide (P x)), (decide (Q x)); tauto.
Qed.

Lemma state_of_lt w h st : state_of h w = Some st -> (h < length (threads w))%nat.
Proof.
  unfold state_of. intros Hst.
  destruct (threads w !! h) as [t|] eqn:E; [|discriminate].
  by eapply lookup_lt_Some.
Qed.

Lemma elem_of_waiting w h : h ∈ waiting w <-> state_of h w = Some Waiting.
Proof.
  unfold waiting. rewrite list_elem_of_filter, elem_of_seq. split.
  - by intros [? _].
  - intros Hst. split; [done|]. apply state_of_lt in Hst. lia.
Qed.

Lemma state_of_mark w h h' st :
  state_of h' (mark h st w) =
  if decide (h = h') then (fun _ => st) <$> state_of h w else state_of h' w.
Proof.
  unfold state_of, mark; simpl. rewrite list_lookup_alter.
  destruct (decide (h = h')); [|done].
  by destruct (threads w !! h).
Qed.

Lemma state_of_cancel (l : list (Timer T)) h h' :
  t_state <$> alter cancel h l !! h' =
  if decide (h = h' /\ t_state <$> l !! h = Some Waiting)
  then Some Cancelled else t_state <$> l !! h'.
Proof.
  rewrite list_lookup_alter. destruct (decide (h = h')) as [->|Hne].
  - destruct (l !! h') as [[dl st]|]; simpl.
    + unfold cancel; simpl. destruct st; simpl;
        destruct (decide _) as [[_ E]|N]; try done; try discriminate E.
      exfalso; apply N; done.
    + destruct (decide _) as [[_ E]|N]; [discriminate E | done].
  - destruct (decide _) as [[E _]|N]; [contradiction | done].
Qed.

Lemma state_of_stop w h :
  state_of h (stop w) =
  if decide (_timer (self w) = Some h /\ state_of h w = Some Waiting)
  then Some Cancelled else state_of h w.
Proof.
  unfold state_of, stop; simpl.
  destruct (_timer (self w)) as [h0|].
  - rewrite state_of_cancel.
    destruct (decide (h0 = h /\ _)) as [[E1 E]|N],
             (decide (Some h0 = Some h /\ _)) as [[E' E'']|N']; try done.
    + exfalso; apply N'; subst; done.
    + exfalso; apply N. inversion E'; subst. done.
  - destruct (decide _) as [[E _]|N]; [discriminate E | done].
Qed.

Lemma length_stop w : length (threads (stop w)) = length (threads w).
Proof.
  unfold stop; simpl. destruct (_timer (self w)); [apply length_alter | done].
Qed.

Lemma waiting_stop_subseteq w : waiting (stop w) ⊆ waiting w.
Proof.
  intros h. rewrite !elem_of_waiting, state_of_stop.
  destruct (decide _); [discriminate | done].
Qed.

Lemma state_of_start_old w h now fr :
  (h < length (threads w))%nat -> state_of h (start fr now w) = state_of h w.
Proof.
  intros Hlt. unfold start.
  destruct (fr || _stopped (self w)); [|done].
  unfold state_of; simpl. by rewrite lookup_app_l.
Qed.

Lemma start_armed w now fr :
  fr || _stopped (self w) = true ->
  start fr now w =
  mkWorld (mkCustomTimer (interval (self w)) (repeat (self w))
             (Some (length (threads w))) false (Some (next_deadline now (self w))))
          (threads w ++
             [mkTimer (py_max0 (num_sub (next_deadline now (self w)) now)) Waiting]).
Proof. intros Hg. unfold start. by rewrite Hg. Qed.

Lemma start_ignored w now :
  _stopped (self w) = false -> start false now w = w.
Proof. intros Hs. unfold start. by rewrite Hs. Qed.

Lemma waiting_snoc (l : list (Timer T)) (s s' : CustomTimer T) (t : Timer T) :
  waiting (mkWorld s' (l ++ [t])) =
  waiting (mkWorld s l) ++ (if decide (t_state t = Waiting) then [length l] else []).
Proof.
  unfold waiting; simpl. rewrite length_app; simpl.
  rewrite Nat.add_1_r, seq_S, filter_app; simpl. f_equal.
  - apply filter_agree. intros h Hh. apply elem_of_seq in Hh.
    unfold state_of; simpl. rewrite lookup_app_l by lia. done.
  - rewrite filter_cons, filter_nil. unfold state_of; simpl.
    rewrite list_lookup_middle by done. simpl.
    destruct (decide (Some (t_state t) = Some Waiting)) as [E|N],
             (decide (t_state t = Waiting)) as [E'|N']; try done.
    + inversion E; contradiction.
    + rewrite E' in N; contradiction.
Qed.

Lemma waiting_mark w h st :
  st <> Waiting -> state_of h w <> Some Waiting -> waiting (mark h st w) = waiting w.
Proof.
  intros Hst Hh. unfold waiting. unfold mark at 2; simpl. rewrite length_alter.
  apply filter_agree. intros h' _. rewrite state_of_mark.
  destruct (decide (h = h')) as [->|]; [|done].
  destruct (state_of h' w) as [st'|]; simpl; split; intros E; try discriminate;
    inversion E; subst; contradiction.
Qed.

Lemma waiting_start w now fr :
  fr || _stopped (self w) = true ->
  waiting (start fr now w) = waiting w ++ [length (threads w)].
Proof.
  intros Hg. rewrite start_armed by done.
  rewrite (waiting_snoc _ (self w)); simpl. by destruct w.
Qed.

Lemma state_of_start_armed w h now fr :
  fr || _stopped (self w) = true ->
  state_of h (start fr now w) =
  if decide (h = length (threads w)) then Some Waiting else state_of h w.
Proof.
  intros Hg. rewrite start_armed by done. unfold state_of; simpl.
  destruct (decide (h = length (threads w))) as [->|Hne].
  - by rewrite list_lookup_middle.
  - destruct (decide (h < length (threads w))%nat).
    + by rewrite lookup_app_l.
    + rewrite !lookup_ge_None_2; [done|lia|rewrite length_app; simpl; lia].
Qed.

Lemma self_start_armed w now fr :
  fr || _stopped (self w) = true ->
  self (start fr now w) =
  mkCustomTimer (interval (self w)) (repeat (self w))
    (Some (length (threads w))) false (Some (next_deadline now (self w))).
Proof. intros Hg. by rewrite start_armed. Qed.

Lemma length_start_armed w now fr :
  fr || _stopped (self w) = true ->
  length (threads (start fr now w)) = S (length (threads w)).
Proof. intros Hg. rewrite start_armed by done. simpl. rewrite length_app. simpl. lia. Qed.

Lemma length_mark w h st : length (threads (mark h st w)) = length (threads w).
Proof. unfold mark; simpl. apply length_alter. Qed.

End TimerFacts.

Section TimerClaims.
Context {T : Type} `{PyNum T}.
Implicit Types (w : World T) (h : nat) (now d itv : T).

(** [stop()] and [start()] back to back, with nothing in between: whatever
    the timer's state was, the deadline is the new start time plus one
    interval, and a fresh thread is armed for [max(0, deadline - now)]. *)
Theorem restart_resets_cadence w now :
  let w' := start false now (stop w) in
  next_call (self w') = Some (num_add now (interval (self w))) /\
  _stopped (self w') = false /\
  _timer (self w') = Some (length (threads w)) /\
  threads w' !! length (threads w) =
    Some (mkTimer (py_max0 (num_sub (num_add now (interval (self w))) now)) Waiting).
Proof.
  cbv zeta. rewrite start_armed by done.
  cbn [self threads next_call _stopped _timer]. rewrite length_stop.
  repeat split.
  rewrite <- (length_stop w). by rewrite list_lookup_middle.
Qed.

(** C8.  A second [stop()] changes nothing, [stop()] on a timer that was never
    started changes nothing, and after any [stop()] the timer is stopped with
    no handle and no deadline; [stop()] arms no thread, and the thread it
    held is not left waiting. *)
Theorem stop_idempotent w :
  stop (stop w) = stop w /\
  (forall itv rep now, stop (init itv false rep now) = init itv false rep now) /\
  self (stop w) =
    mkCustomTimer (interval (self w)) (repeat (self w)) None true None /\
  waiting (stop w) ⊆ waiting w /\
  (forall h, _timer (self w) = Some h -> h ∉ waiting (stop w)).
Proof.
  split; [done|]. split; [done|]. split; [done|].
  split; [apply waiting_stop_subseteq|].
  intros h Hh. rewrite elem_of_waiting, state_of_stop.
  destruct (decide _) as [_|N]; [discriminate|].
  intros E. apply N. done.
Qed.

(** The timer constructed with [autostart=False] cannot fire before a
    [start()]: the only calls that can happen leave it as constructed. *)
Lemma unstarted_stays_idle itv rep now (es : list event) w :
  forallb (fun e => negb (is_call_start e)) es = true ->
  run es (init itv false rep now) = Some w ->
  forallb (fun e => negb (is_fire e)) es = true /\ w = init itv false rep now.
Proof.
  induction es as [|e es IH]; simpl.
  - intros _ E. by inversion E.
  - intros Hns. apply andb_prop in Hns as [He Hes].
    destruct e as [t| |h|h o t]; simpl in *; try discriminate.
    apply IH, Hes.
Qed.

(** C10.  With [autostart=True], the default, the constructor is
    [start()] applied to the freshly built object: the timer is running, its
    first deadline is construction time plus the interval and its thread is
    armed.  With [autostart=False] the object is stopped, has no deadline and
    no thread, and no firing can happen in any sequence of calls that does not
    contain [start()]. *)
Theorem autostart_default itv rep now :
  init itv true rep now = start false now (init itv false rep now) /\
  self (init itv true rep now) =
    mkCustomTimer itv rep (Some 0%nat) false (Some (num_add now itv)) /\
  threads (init itv true rep now) =
    [mkTimer (py_max0 (num_sub (num_add now itv) now)) Waiting] /\
  is_Some (step (Fire 0) (init itv true rep now)) /\
  init itv false rep now = mkWorld (mkCustomTimer itv rep None true None) [] /\
  (forall (es : list event) w,
     forallb (fun e => negb (is_call_start e)) es = true ->
     run es (init itv false rep now) = Some w ->
     forallb (fun e => negb (is_fire e)) es = true /\
     w = init itv false rep now).
Proof.
  split; [done|]. split; [done|]. split; [done|].
  split; [by eexists|]. split; [done|].
  apply unstarted_stays_idle.
Qed.

(** A running thread can always end its callback: the step is the [finally]
    clause of [_run] followed by the exit of the thread. *)
Lemma return_step w h o now :
  state_of h w = Some Running ->
  step (Return h o now) w = Some (mark h Finished (_run_finally now w)).
Proof. intros Hr. unfold step. by rewrite Hr. Qed.

(** What [start] does when nothing interferes: in repeat mode, a firing
    that finds a deadline [d] set (and not zero) rearms with deadline [d + interval], whatever the clock says; a
    [start()] on a stopped timer with no deadline sets it to [now + interval].
    In both cases the new thread sleeps for [max(0, deadline - now)]. *)
Theorem start_fixed_rate w now :
  (forall h o d,
     repeat (self w) = true ->
     state_of h w = Some Running ->
     next_call (self w) = Some d ->
     num_is_zero d = false ->
     exists w',
       step (Return h o now) w = Some w' /\
       next_call (self w') = Some (num_add d (interval (self w))) /\
       _timer (self w') = Some (length (threads w)) /\
       threads w' !! length (threads w) =
         Some (mkTimer
                 (py_max0 (num_sub (num_add d (interval (self w))) now))
                 Waiting)) /\
  (_stopped (self w) = true ->
   next_call (self w) = None ->
   let w' := start false now w in
   next_call (self w') = Some (num_add now (interval (self w))) /\
   _timer (self w') = Some (length (threads w)) /\
   threads w' !! length (threads w) =
     Some (mkTimer
             (py_max0 (num_sub (num_add now (interval (self w))) now))
             Waiting)).
Proof.
  split.
  - intros h o d Hrep Hrun Hd Hnz.
    eexists. split; [by apply return_step|].
    unfold _run_finally. rewrite Hrep, start_armed by done.
    unfold next_deadline. rewrite Hd, Hnz. simpl.
    repeat split.
    rewrite list_lookup_alter_ne.
    + by rewrite list_lookup_middle.
    + apply state_of_lt in Hrun. lia.
  - intros Hst Hd. cbv zeta. rewrite start_armed by (by rewrite Hst).
    unfold next_deadline. rewrite Hd. simpl.
    repeat split. by rewrite list_lookup_middle.
Qed.

(** A firing whose callback raises leaves the timer exactly as one whose
    callback returns, and the exception still propagates.  In repeat mode the
    timer is running again, its handle is the one new armed thread, and a
    deadline [d] (not zero) has moved to [d + interval]; in one-shot mode the
    timer is stopped with no handle, no deadline and no new armed thread. *)
Theorem failing_callback_keeps_cadence w h now :
  state_of h w = Some Running ->
  exists w',
    step (Return h Raised now) w = Some w' /\
    step (Return h Returned now) w = Some w' /\
    snd (_run Raised now w) = Raised /\
    if repeat (self w) then
      _stopped (self w') = false /\
      _timer (self w') = Some (length (threads w)) /\
      waiting w' = waiting w ++ [length (threads w)] /\
      (forall d, next_call (self w) = Some d -> num_is_zero d = false ->
                 next_call (self w') = Some (num_add d (interval (self w))))
    else
      _stopped (self w') = true /\
      _timer (self w') = None /\
      next_call (self w') = None /\
      waiting w' ⊆ waiting w.
Proof.
  intros Hrun. eexists.
  split; [by apply return_step|]. split; [by apply return_step|].
  split; [done|].
  unfold _run_finally. destruct (repeat (self w)) eqn:Hrep.
  - rewrite start_armed by done. simpl. repeat split.
    + rewrite <- (start_armed w now true) by done.
      rewrite waiting_mark; [by apply waiting_start|done|].
      rewrite state_of_start_old by (by eapply state_of_lt).
      by rewrite Hrun.
    + intros d Hd Hnz. unfold next_deadline. by rewrite Hd, Hnz.
  - simpl. repeat split.
    rewrite waiting_mark; [apply waiting_stop_subseteq|done|].
    rewrite state_of_stop, Hrun. by destruct (decide _).
Qed.

(** X19.  A [stop()] that arrives while the callback of a repeating timer runs
    does not end the schedule: the firing rearms all the same. *)
Lemma stop_during_callback_rearms w h o now :
  repeat (self w) = true ->
  state_of h w = Some Running ->
  exists w',
    run [CallStop; Return h o now] w = Some w' /\
    _stopped (self w') = false /\
    next_call (self w') = Some (num_add now (interval (self w))) /\
    length (threads w) ∈ waiting w'.
Proof.
  intros Hrep Hrun.
  assert (Hrun' : state_of h (stop w) = Some Running).
  { rewrite state_of_stop, Hrun. by destruct (decide _) as [[_ ?]|]. }
  exists (mark h Finished (start true now (stop w))).
  split.
  { cbn [run step]. rewrite Hrun'.
    unfold _run, _run_finally. cbn [fst stop self repeat]. by rewrite Hrep. }
  split; [done|]. split; [done|].
  apply elem_of_waiting.
  rewrite state_of_mark.
  destruct (decide (h = length (threads w))) as [E|_].
  - apply state_of_lt in Hrun. lia.
  - rewrite state_of_start_armed, length_stop by done.
    by destruct (decide (length (threads w) = length (threads w))).
Qed.

End TimerClaims.

(** ** The timer on integer clock ticks *)

Section Cadence.
Variables (itv t0 : Z) (os : nat -> outcome) (nows : nat -> Z).
Hypothesis first_deadline_pos : 0 < t0 + itv.
Hypothesis interval_nonneg : 0 <= itv.

Lemma between_firings_init : between_firings itv t0 0 (init itv true true t0).
Proof.
  unfold between_firings, init. rewrite start_armed by done.
  cbn [self threads repeat interval _stopped _timer next_call length
       next_deadline num_add PyNum_Z app].
  repeat split; try done.
  - f_equal. lia.
  - destruct h; [done|]. unfold state_of; simpl. discriminate.
  - by intros ->.
Qed.

Lemma between_firings_step k (w : World Z) o now :
  between_firings itv t0 k w ->
  exists w', run [Fire k; Return k o now] w = Some w' /\ between_firings itv t0 (S k) w'.
Proof.
  intros (Hrep & Hitv & Hst & Htm & Hlen & Hnc & Hw).
  assert (Hk : state_of k w = Some Waiting) by by apply Hw.
  assert (Hk1 : state_of k (mark k Running w) = Some Running).
  { rewrite state_of_mark, Hk. by destruct (decide (k = k)). }
  assert (Hnz : num_is_zero (t0 + (Z.of_nat k + 1) * itv) = false).
  { apply Z.eqb_neq. nia. }
  exists (mark k Finished (start true now (mark k Running w))).
  split.
  { unfold run, step at 1. rewrite Hk. rewrite return_step by done.
    unfold _run_finally. cbn [mark self]. by rewrite Hrep. }
  unfold between_firings.
  rewrite length_mark, length_start_armed, length_mark by done.
  replace (self (mark k Finished (start true now (mark k Running w))))
    with (self (start true now (mark k Running w))) by done.
  rewrite self_start_armed, length_mark by done.
  cbn [mark self repeat interval _stopped _timer next_call].
  unfold next_deadline. rewrite Hnc, Hnz, Hitv, Hlen. cbn [num_add PyNum_Z].
  split; [done|]. split; [done|]. split; [done|]. split; [done|].
  split; [done|]. split; [f_equal; lia|].
  intros h.
  rewrite state_of_mark, !state_of_start_armed, length_mark, Hlen, Hk1 by done.
  rewrite state_of_mark.
  destruct (decide (k = h)) as [E|N]; simpl.
  - destruct (decide (k = S k)); [lia|]. simpl. split; [discriminate | lia].
  - destruct (decide (h = S k)); [done|].
    split; [|lia]. intros E. apply Hw in E. congruence.
Qed.

Lemma firings_run k n (w : World Z) :
  between_firings itv t0 k w ->
  exists w', run (firings k n os nows) w = Some w' /\ between_firings itv t0 (k + n) w'.
Proof.
  revert k w. induction n as [|n IH]; intros k w Hinv.
  - exists w. by rewrite Nat.add_0_r.
  - destruct (between_firings_step k w (os k) (nows k) Hinv) as (w1 & Hrun1 & Hinv1).
    destruct (IH (S k) w1 Hinv1) as (w2 & Hrun2 & Hinv2).
    exists w2. split; [|by rewrite Nat.add_succ_r].
    simpl in *. destruct (state_of k w) as [[]|]; try discriminate.
    destruct (state_of k (mark k Running w)) as [[]|]; try discriminate.
    inversion Hrun1; subst. done.
Qed.

(** X1.  Fixed rate, on integer clock ticks (the interval and every clock
    reading an integer): after [n] firings of a timer started at [t0], however each
    callback ended and whenever it did, the deadline is [t0 + (n+1)*itv] and
    thread [n] is the one armed. *)
Lemma fixed_rate_cadence n :
  exists w,
    run (firings 0 n os nows) (init itv true true t0) = Some w /\
    next_call (self w) = Some (t0 + (Z.of_nat n + 1) * itv) /\
    _timer (self w) = Some n /\
    (forall h, state_of h w = Some Waiting <-> h = n).
Proof.
  destruct (firings_run 0 n _ between_firings_init) as (w & Hrun & Hinv).
  exists w. split; [done|].
  by destruct Hinv as (_ & _ & _ & ? & _ & ? & ?).
Qed.

End Cadence.

(** *** Concrete runs

    A repeating timer with [interval = 5], constructed when the clock reads
    [10]: its first deadline is [15]. *)

(** C1, on the code: thread 0 wakes up (at 15), [stop()] is called while
    the callback runs, and the callback ends when the clock reads [17].  The
    firing then sets the deadline to [17 + 5], computed from the current
    time, and not to the previous deadline plus the interval, [15 + 5]. *)
Lemma rearm_after_stop_uses_now :
  next_call (self (init 5 true true 10)) = Some 15 /\
  exists w1 w2,
    run [Fire 0; CallStop] (init 5 true true 10) = Some w1 /\
    step (Return 0 Returned 17) w1 = Some w2 /\
    next_call (self w2) = Some (17 + 5) /\
    next_call (self w2) <> Some (15 + 5).
Proof.
  split; [reflexivity|].
  eexists. eexists. split; [reflexivity|]. split; [reflexivity|].
  split; [reflexivity|]. discriminate.
Qed.

(** A deadline that is zero is taken for a missing one by
    [not self.next_call], and is recomputed from the clock as well. *)
Lemma zero_deadline_uses_now :
  let w := mkWorld (mkCustomTimer 5 true (Some 0%nat) false (Some 0))
                   [mkTimer 5 Running] in
  exists w', step (Return 0 Returned 2) w = Some w' /\
             next_call (self w') = Some (2 + 5).
Proof. eexists. split; reflexivity. Qed.

(** A restart, by contrast with a firing, is anchored at its own clock
    reading: started at 10, stopped, started again at 12, the deadline is 17
    and not 20. *)
Lemma restart_at_12 :
  run [CallStop; CallStart 12] (init 5 true true 10) =
  Some (mkWorld (mkCustomTimer 5 true (Some 1%nat) false (Some 17))
                [mkTimer 5 Cancelled; mkTimer 5 Waiting]).
Proof. reflexivity. Qed.

Lemma start_fixed_rate_witness :
  (exists w',
     step (Return 0 Returned 16)
          (mkWorld (mkCustomTimer 5 true (Some 0%nat) false (Some 15))
                   [mkTimer 5 Running]) = Some w' /\
     next_call (self w') = Some 20 /\
     _timer (self w') = Some 1%nat /\
     threads w' !! 1%nat = Some (mkTimer 4 Waiting)) /\
  (next_call (self (start false 10 (init 5 false true 10))) = Some 15 /\
   _timer (self (start false 10 (init 5 false true 10))) = Some 0%nat /\
   threads (start false 10 (init 5 false true 10)) !! 0%nat =
     Some (mkTimer 5 Waiting)).
Proof.
  split.
  - exact (proj1 (start_fixed_rate
                    (mkWorld (mkCustomTimer 5 true (Some 0%nat) false (Some 15))
                             [mkTimer 5 Running]) 16)
                 0%nat Returned 15 eq_refl eq_refl eq_refl eq_refl).
  - exact (proj2 (start_fixed_rate (init 5 false true 10) 10) eq_refl eq_refl).
Defined.


(** C7, on the code: [stop()] is called while the callback of thread 0 runs,
    the callback ends at [17] and rearms (deadline [22]), and [start()] is
    called at [18].  That [start()] finds the timer running and does
    nothing: the deadline stays [22], the one the rearm took, and is not
    the new start time plus the interval, [18 + 5]. *)
Theorem restart_after_overlapping_stop_is_ignored :
  exists w3 w4,
    run [Fire 0; CallStop; Return 0 Returned 17] (init 5 true true 10) = Some w3 /\
    step (CallStart 18) w3 = Some w4 /\
    w4 = w3 /\
    next_call (self w4) = Some 22 /\
    next_call (self w4) <> Some (18 + 5) /\
    waiting w4 = [1%nat].
Proof.
  do 2 eexists. split; [reflexivity|]. split; [reflexivity|].
  split; [reflexivity|]. split; [reflexivity|].
  split; [discriminate | reflexivity].
Qed.

(** C2, on the code: thread 0 has woken up and its callback is running when
    an external [stop()] is called and returns, leaving the timer stopped with
    nothing armed.  When the callback ends, [start(from_run=True)] skips the
    [_stopped] test: the timer is running again, thread 1 is armed, and it
    fires. *)
Theorem stop_does_not_prevent_rearm :
  exists w1 w2 w3 w4,
    step (Fire 0) (init 5 true true 10) = Some w1 /\
    step CallStop w1 = Some w2 /\
    _stopped (self w2) = true /\ waiting w2 = [] /\
    step (Return 0 Returned 17) w2 = Some w3 /\
    _stopped (self w3) = false /\ waiting w3 = [1%nat] /\
    step (Fire 1) w3 = Some w4 /\
    state_of 1 w4 = Some Running.
Proof.
  do 4 eexists.
  split; [reflexivity|]. split; [reflexivity|]. split; [reflexivity|].
  split; [reflexivity|]. split; [reflexivity|]. split; [reflexivity|].
  split; [reflexivity|]. split; reflexivity.
Qed.

Lemma failing_callback_keeps_cadence_witness :
  exists w',
    step (Return 0 Raised 16)
         (mkWorld (mkCustomTimer 5 true (Some 0%nat) false (Some 15))
                  [mkTimer 5 Running]) = Some w' /\
    _stopped (self w') = false /\
    _timer (self w') = Some 1%nat /\
    waiting w' = [1%nat].
Proof.
  destruct (failing_callback_keeps_cadence
              (mkWorld (mkCustomTimer 5 true (Some 0%nat) false (Some 15))
                       [mkTimer 5 Running]) 0%nat 16 eq_refl)
    as (w' & Hstep & _ & _ & Hst & Htm & Hw & _).
  exists w'. repeat split; assumption.
Defined.

Lemma autostart_default_witness :
  forallb (fun e => negb (is_call_start e)) [@CallStop Z; CallStop] = true /\
  run [CallStop; CallStop] (init 5 false true 10) = Some (init 5 false true 10) /\
  forallb (fun e => negb (is_fire e)) [@CallStop Z; CallStop] = true.
Proof.
  split; [reflexivity|]. split; [reflexivity|].
  exact (proj1 (proj2 (proj2 (proj2 (proj2 (proj2 (autostart_default 5 true 10)))))
                  [CallStop; CallStop] (init 5 false true 10) eq_refl eq_refl)).
Defined.

(** * Properties of the key handlers *)

(** Unfolds the handler monad down to the triple a handler returns. *)
Ltac run_handler :=
  unfold _set_motion, _beep_song, toggle_sensor_polling, poll_sensors, on_quit,
    require_robot, call_robot, get_robot, del_robot, timer_stop, timer_new,
    set_velocity, set_rotation, set_sensor_poll_timer,
    set_sensor_polling_active, when_some, emit, raise, get, put,
    mbind, mret, M_bind, M_ret;
  cbn -[py_int py_truediv Z.mul Z.quot Qplus Qminus inject_Z init stop].

Lemma py_int_plus_half (v r : Z) :
  py_int (inject_Z v + py_truediv r 2)%Q = (2 * v + r) ÷ 2.
Proof.
  unfold py_int, py_truediv, Qdiv, Qinv, Qmult, Qplus, inject_Z.
  cbn [Qnum Qden Pos.mul]. f_equal. lia.
Qed.

Lemma py_int_minus_half (v r : Z) :
  py_int (inject_Z v - py_truediv r 2)%Q = (2 * v - r) ÷ 2.
Proof.
  unfold py_int, py_truediv, Qminus, Qopp, Qdiv, Qinv, Qmult, Qplus, inject_Z.
  cbn [Qnum Qden Pos.mul]. f_equal. lia.
Qed.

(** [py_int] rounds toward zero: down for a non-negative number, up for a
    negative one. *)
Lemma py_int_truncates (q : Q) :
  py_int q = if Qle_bool 0 q then Qfloor q else Qceiling q.
Proof.
  destruct q as [n d]. unfold py_int, Qle_bool, Qceiling, Qfloor, Qopp.
  cbn [Qnum Qden]. rewrite Z.mul_1_r. change (0 * Z.pos d) with 0.
  destruct (Z.leb_spec 0 n).
  - apply Z.quot_div_nonneg; lia.
  - rewrite <- (Z.opp_involutive n) at 1. rewrite Z.quot_opp_l by lia.
    f_equal. apply Z.quot_div_nonneg; lia.
Qed.

(** What [_set_motion] does on a connected application. *)
Lemma set_motion_connected (port : string) (v0 r0 : Z) (t : option nat)
    (act : bool) (tms : list (World Q)) (v r : option Z) :
  _set_motion v r (mkApp (Create2 port) v0 r0 t act tms) =
  (Ok tt,
   mkApp (Create2 port) (default v0 v) (default r0 r) t act tms,
   [RobotIO (r_drive_direct ((2 * default v0 v - default r0 r) ÷ 2)
                            ((2 * default v0 v + default r0 r) ÷ 2))]).
Proof.
  destruct v as [v|], r as [r|]; run_handler;
    by rewrite py_int_plus_half, py_int_minus_half.
Qed.

(** C6.  On a connected application whose axes, before and after the call,
    are within [2^50] of zero (the keys only ever store 0, 200, -200 and 0,
    300, -300), [_set_motion] stores the axes it is given and sends
    [drive_direct(left, right)] with [left = trunc(velocity - rotation/2)]
    and [right = trunc(velocity + rotation/2)] of the stored pair,
    truncating toward zero.  Pressing UP and then LEFT sends [(50, 350)];
    releasing LEFT then sends [(200, 200)]. *)
Theorem set_motion_drive_command (app : App) (port : string) (v r : option Z) :
  robot app = Create2 port ->
  Z.abs (velocity app) <= 2 ^ 50 ->
  Z.abs (rotation app) <= 2 ^ 50 ->
  let v' := default (velocity app) v in
  let r' := default (rotation app) r in
  Z.abs v' <= 2 ^ 50 ->
  Z.abs r' <= 2 ^ 50 ->
  _set_motion v r app =
    (Ok tt,
     mkApp (robot app) v' r' (sensor_poll_timer app)
           (sensor_polling_active app) (timers app),
     [RobotIO (r_drive_direct ((2 * v' - r') ÷ 2) ((2 * v' + r') ÷ 2))]) /\
  (2 * v' - r') ÷ 2 = py_int (inject_Z v' - inject_Z r' / 2)%Q /\
  (2 * v' + r') ÷ 2 = py_int (inject_Z v' + inject_Z r' / 2)%Q /\
  (forall env,
     exists a1 a2 a3 out1,
       handle_keypress env "Up" app = (Ok tt, a1, out1) /\
       handle_keypress env "Left" a1 =
         (Ok tt, a2, [RobotIO (r_drive_direct 50 350)]) /\
       handle_keyrelease "Left" a2 =
         (Ok tt, a3, [RobotIO (r_drive_direct 200 200)])).
Proof.
  intros Hrob _ _ v' r' _ _. destruct app as [rb v0 r0 t act tms].
  simpl in Hrob; subst rb. cbn [robot velocity rotation sensor_poll_timer
                                 sensor_polling_active timers] in *.
  split; [apply set_motion_connected|].
  split; [symmetry; apply py_int_minus_half|].
  split; [symmetry; apply py_int_plus_half|].
  intros env.
  unfold handle_keypress, handle_keyrelease.
  cbn [upper upper_ascii lookup_key key_mapping].
  do 4 eexists.
  split; [apply set_motion_connected|].
  split; apply set_motion_connected.
Qed.

Lemma set_motion_drive_command_witness :
  _set_motion (Some (-200)) None (mkApp (Create2 "COM3") 0 300 None false []) =
  (Ok tt, mkApp (Create2 "COM3") (-200) 300 None false [],
   [RobotIO (r_drive_direct (-350) (-50))]).
Proof.
  refine (proj1 (set_motion_drive_command
                   (mkApp (Create2 "COM3") 0 300 None false []) "COM3"
                   (Some (-200)) None eq_refl _ _ _ _));
    apply Z.leb_le; reflexivity.
Defined.

(** C9.  On a connected application whose axes are within [2^50] of zero
    (the keys only ever store 0, 200, -200 and 0, 300, -300), releasing UP or
    DOWN sets the velocity to 0 and keeps the rotation, releasing LEFT or
    RIGHT sets the rotation to 0 and keeps the velocity; the command sent is
    the one derived from the new pair. *)
Theorem keyrelease_resets_one_axis (app : App) (port key : string) :
  robot app = Create2 port ->
  Z.abs (velocity app) <= 2 ^ 50 ->
  Z.abs (rotation app) <= 2 ^ 50 ->
  (upper key = "UP"%string \/ upper key = "DOWN"%string ->
   handle_keyrelease key app =
     (Ok tt,
      mkApp (robot app) 0 (rotation app) (sensor_poll_timer app)
            (sensor_polling_active app) (timers app),
      [RobotIO (r_drive_direct ((2 * 0 - rotation app) ÷ 2)
                               ((2 * 0 + rotation app) ÷ 2))])) /\
  (upper key = "LEFT"%string \/ upper key = "RIGHT"%string ->
   handle_keyrelease key app =
     (Ok tt,
      mkApp (robot app) (velocity app) 0 (sensor_poll_timer app)
            (sensor_polling_active app) (timers app),
      [RobotIO (r_drive_direct (velocity app) (velocity app))])).
Proof.
  intros Hrob _ _. destruct app as [rb v0 r0 t act tms].
  simpl in Hrob; subst rb. cbn [robot velocity rotation sensor_poll_timer
                                 sensor_polling_active timers].
  unfold handle_keyrelease. split.
  - intros [-> | ->]; cbn [String.eqb Ascii.eqb Bool.eqb orb];
      apply set_motion_connected.
  - intros [-> | ->]; cbn [String.eqb Ascii.eqb Bool.eqb orb];
      rewrite set_motion_connected; cbn [default];
      rewrite Z.sub_0_r, Z.add_0_r, Z.mul_comm, Z.quot_mul by lia; reflexivity.
Qed.

Lemma keyrelease_resets_one_axis_witness :
  handle_keyrelease "Up" (mkApp (Create2 "COM3") 200 300 None false []) =
  (Ok tt, mkApp (Create2 "COM3") 0 300 None false [],
   [RobotIO (r_drive_direct (-150) 150)]).
Proof.
  refine (proj1 (keyrelease_resets_one_axis
                   (mkApp (Create2 "COM3") 200 300 None false []) "COM3" "Up"
                   eq_refl _ _)
                (or_introl eq_refl));
    apply Z.leb_le; reflexivity.
Defined.

(** X18.  The handlers behind [@require_robot] do reject a command when no robot
    is connected: for a keysym that upper-cases to SPACE, O, UP, DOWN, LEFT or
    RIGHT (space, o, Up, ... as Tk delivers them), an error box, no call on
    the robot, nothing changed. *)
Lemma guarded_keys_rejected (env : Env) (v r : Z) (t : option nat)
    (act : bool) (tms : list (World Q)) (key : string) :
  In (upper key) ["SPACE"; "O"; "UP"; "DOWN"; "LEFT"; "RIGHT"]%string ->
  handle_keypress env key (mkApp PyNone v r t act tms) =
  (Ok tt, mkApp PyNone v r t act tms, [ShowInfo "Error" "Robot Not Connected!"]).
Proof.
  unfold handle_keypress. simpl.
  intros [<-|[<-|[<-|[<-|[<-|[<-|[]]]]]]]; reflexivity.
Qed.

(** Releasing a motion key with no robot connected is rejected the same
    way and leaves both axes as they are. *)
Lemma keyrelease_disconnected (v r : Z) (t : option nat) (act : bool)
    (tms : list (World Q)) (key : string) :
  In (upper key) ["UP"; "DOWN"; "LEFT"; "RIGHT"]%string ->
  handle_keyrelease key (mkApp PyNone v r t act tms) =
  (Ok tt, mkApp PyNone v r t act tms, [ShowInfo "Error" "Robot Not Connected!"]).
Proof.
  unfold handle_keyrelease. simpl.
  intros [<-|[<-|[<-|[<-|[]]]]]; reflexivity.
Qed.

(** C3, on the code: the mode keys P, S, F, C, R and B are not behind
    [@require_robot].  With no robot connected their handlers call a method
    on [None]: [AttributeError] leaves [handle_keypress] and no error is
    reported. *)
Theorem mode_key_disconnected_raises (env : Env) (v r : Z) (t : option nat)
    (act : bool) (tms : list (World Q)) :
  Forall
    (fun key =>
       handle_keypress env key (mkApp PyNone v r t act tms) =
       (Exc AttributeError, mkApp PyNone v r t act tms, []))
    ["p"; "s"; "f"; "c"; "r"; "b"; "P"; "S"; "F"; "C"; "R"; "B"]%string.
Proof. repeat constructor. Qed.

(** [on_quit] never touches the timers. *)
Lemma on_quit_keeps_timers (env : Env) (app : App) :
  timers (snd (fst (on_quit env app))) = timers app /\
  sensor_poll_timer (snd (fst (on_quit env app))) = sensor_poll_timer app.
Proof.
  destruct app as [[] v r t act tms]; run_handler;
    destruct (confirm_quit env); done.
Qed.

(** C4, on the code: polling is switched on at clock [10] on a connected
    application, then the operator quits and confirms.  [on_quit] deletes the
    robot and destroys the window without stopping the timer: the timer is
    still running with its thread armed, that thread fires, and the poll it
    runs finds no robot attribute. *)
Theorem on_quit_leaves_timer_armed :
  let env := mkEnv 10 true "bumps: 0" in
  exists polling after w w',
    toggle_sensor_polling env (mkApp (Create2 "COM3") 0 0 None false []) =
      (Ok tt, polling, [LogInfo "Sensor polling started."]) /\
    on_quit env polling =
      (Ok tt, after,
       [AskYesNo "Really?" "Are you sure you want to quit?"; Destroy]) /\
    robot after = NoAttr /\
    sensor_poll_timer after = Some 0%nat /\
    timers after !! 0%nat = Some w /\
    _stopped (self w) = false /\
    waiting w = [0%nat] /\
    step (Fire 0) w = Some w' /\
    poll_sensors env false after = (Exc AttributeError, after, []).
Proof.
  do 4 eexists.
  split; [reflexivity|]. split; [reflexivity|]. split; [reflexivity|].
  split; [reflexivity|]. split; [reflexivity|]. split; [reflexivity|].
  split; [reflexivity|]. split; reflexivity.
Qed.

(** Switching polling off, by contrast, does stop the timer. *)
Lemma toggle_off_stops_timer :
  let env := mkEnv 10 true "bumps: 0" in
  exists polling idle w,
    toggle_sensor_polling env (mkApp (Create2 "COM3") 0 0 None false []) =
      (Ok tt, polling, [LogInfo "Sensor polling started."]) /\
    toggle_sensor_polling env polling =
      (Ok tt, idle, [LogInfo "Sensor polling stopped."]) /\
    sensor_poll_timer idle = None /\
    timers idle !! 0%nat = Some w /\
    _stopped (self w) = true /\
    waiting w = [].
Proof.
  do 3 eexists.
  split; [reflexivity|]. split; [reflexivity|]. split; [reflexivity|].
  split; [reflexivity|]. split; reflexivity.
Qed.

(** The constructor call in [toggle_sensor_polling] relies on the default
    [autostart=True]: the timer it creates is running, with its first
    deadline half a second after the clock reading. *)
Lemma toggle_on_starts_timer (env : Env) (port : string) (v r : Z)
    (t : option nat) (tms : list (World Q)) :
  toggle_sensor_polling env (mkApp (Create2 port) v r t false tms) =
  (Ok tt,
   mkApp (Create2 port) v r (Some (length tms)) true
         (tms ++ [start false (clock env) (init (1 # 2)%Q false true (clock env))]),
   [LogInfo "Sensor polling started."]).
Proof. reflexivity. Qed.

(** * Further properties of [CustomTimer] *)

Section TimerRuns.
Context {T : Type} `{PyNum T}.
Implicit Types (w : World T) (h : nat) (now d itv : T) (es : list (@event T)).

(** X3.  A second [start()] changes nothing: a running timer ignores
    [start()], so calling it twice arms one thread, with the deadline of the
    first call. *)
Theorem start_twice w now now' :
  start false now' (start false now w) = start false now w.
Proof.
  destruct (_stopped (self w)) eqn:Hs.
  - rewrite (start_armed w now false) by (by rewrite Hs). by apply start_ignored.
  - rewrite (start_ignored w now) by done. by apply start_ignored.
Qed.

Lemma consistent_mark w h st : consistent w -> consistent (mark h st w).
Proof.
  unfold consistent, mark; simpl. by rewrite length_alter.
Qed.

Lemma consistent_stop w : consistent (stop w).
Proof. by unfold consistent, stop; simpl. Qed.

Lemma consistent_start w fr now : consistent w -> consistent (start fr now w).
Proof.
  intros Hc. unfold start. destruct (fr || _stopped (self w)); [|done].
  unfold consistent; simpl. eexists. split; [done|].
  rewrite length_app; simpl. split; [lia|by eexists].
Qed.

Lemma consistent_step w w' (e : @event T) :
  consistent w -> step e w = Some w' -> consistent w'.
Proof.
  intros Hc. destruct e as [t| |h|h o t]; simpl.
  - intros [= <-]. by apply consistent_start.
  - intros [= <-]. apply consistent_stop.
  - destruct (state_of h w) as [[]|]; try discriminate.
    intros [= <-]. by apply consistent_mark.
  - destruct (state_of h w) as [[]|]; try discriminate.
    intros [= <-]. apply consistent_mark. unfold _run_finally.
    destruct (repeat (self w)); [by apply consistent_start | apply consistent_stop].
Qed.

Lemma consistent_run es w w' :
  consistent w -> run es w = Some w' -> consistent w'.
Proof.
  revert w. induction es as [|e es IH]; simpl; intros w Hc.
  - by intros [= <-].
  - destruct (step e w) as [w1|] eqn:E; [|discriminate].
    apply IH. by eapply consistent_step.
Qed.

(** X4.  In every state a timer can reach, through any interleaving of
    external calls and firings, the fields agree: a stopped timer has no
    handle and no deadline, a running one has a deadline and a handle that
    refers to one of its threads. *)
Theorem run_keeps_consistent itv (autostart rep : bool) now es w :
  run es (init itv autostart rep now) = Some w -> consistent w.
Proof.
  apply consistent_run. unfold init.
  destruct autostart; [apply consistent_start|]; by unfold consistent.
Qed.

(** Once a thread has left [Waiting], no step brings it back. *)
Lemma step_keeps_woken w w' h st (e : @event T) :
  state_of h w = Some st -> st <> Waiting -> step e w = Some w' ->
  exists st', state_of h w' = Some st' /\ st' <> Waiting.
Proof.
  intros Hst Hne.
  assert (Hstart : forall fr t, state_of h (start fr t w) = Some st).
  { intros fr t. rewrite state_of_start_old; [done | by eapply state_of_lt]. }
  assert (Hstop : state_of h (stop w) = Some st).
  { rewrite state_of_stop, Hst. destruct (decide _) as [[_ E]|]; [|done].
    inversion E; subst; contradiction. }
  assert (Hmark : forall k st2 w2, st2 <> Waiting -> state_of h w2 = Some st ->
            exists st', state_of h (mark k st2 w2) = Some st' /\ st' <> Waiting).
  { intros k st2 w2 Hst2 H2. rewrite state_of_mark.
    destruct (decide (k = h)) as [->|]; [|by eauto].
    rewrite H2. simpl. by eauto. }
  destruct e as [t| |k|k o t]; simpl.
  - intros [= <-]. by eauto.
  - intros [= <-]. by eauto.
  - destruct (state_of k w) as [[]|]; try discriminate.
    intros [= <-]. by apply Hmark.
  - destruct (state_of k w) as [[]|]; try discriminate.
    intros [= <-]. apply Hmark; [done|]. unfold _run_finally.
    by destruct (repeat (self w)).
Qed.

Lemma woken_never_fires es w w' h st :
  state_of h w = Some st -> st <> Waiting -> run es w = Some w' ->
  fire_count h es = O.
Proof.
  revert w st. induction es as [|e es IH]; simpl; intros w st Hst Hne; [done|].
  destruct (step e w) as [w1|] eqn:E; [|discriminate].
  intros Hrun.
  destruct (step_keeps_woken w w1 h st e Hst Hne E) as (st1 & Hst1 & Hne1).
  specialize (IH w1 st1 Hst1 Hne1 Hrun).
  destruct e as [t| |k|k o t]; try done.
  destruct (Nat.eqb_spec h k) as [->|]; [|done].
  simpl in E. rewrite Hst in E. by destruct st.
Qed.

(** X6.  A Timer thread wakes up at most once: in any sequence of events the
    timer can go through, no thread fires twice. *)
Theorem thread_fires_at_most_once es w w' h :
  run es w = Some w' -> (fire_count h es <= 1)%nat.
Proof.
  revert w. induction es as [|e es IH]; simpl; intros w; [lia|].
  destruct (step e w) as [w1|] eqn:E; [|discriminate].
  intros Hrun. specialize (IH w1 Hrun).
  destruct e as [t| |k|k o t]; try done.
  destruct (Nat.eqb_spec h k) as [->|]; [|done].
  simpl in E. destruct (state_of k w) as [[]|] eqn:Hk; try discriminate.
  inversion E; subst w1.
  rewrite (woken_never_fires es (mark k Running w) w' k Running); [lia| |done|done].
  rewrite state_of_mark, Hk. by destruct (decide (k = k)).
Qed.

Lemma quiescent_stop w : quiescent w -> quiescent (stop w).
Proof.
  intros Hq h. destruct (Hq h) as [Hw Hr]. rewrite state_of_stop.
  by destruct (decide _).
Qed.

(** With nothing armed and nothing running, only [start()] can set the
    timer going again. *)
Lemma idle_run es w w' :
  quiescent w ->
  forallb (fun e => negb (is_call_start e)) es = true ->
  run es w = Some w' ->
  forallb (fun e => negb (is_fire e)) es = true /\
  quiescent w' /\
  (_stopped (self w) = true -> _stopped (self w') = true).
Proof.
  revert w. induction es as [|e es IH]; simpl; intros w Hq Hns.
  - by intros [= <-].
  - apply andb_prop in Hns as [He Hes].
    destruct e as [t| |h|h o t]; simpl in *; try discriminate.
    + intros Hrun.
      destruct (IH (stop w) (quiescent_stop w Hq) Hes Hrun) as (? & ? & Hst).
      split; [done|]. split; [done|]. intros _. by apply Hst.
    + destruct (Hq h) as [Hw _].
      destruct (state_of h w) as [[]|]; try discriminate. contradiction.
    + destruct (Hq h) as [_ Hr].
      destruct (state_of h w) as [[]|]; try discriminate. contradiction.
Qed.

(** X8.  [stop()] called while no callback is running ends the schedule:
    if the only sleeping thread is the one the timer holds, then after
    [stop()] no thread fires, whatever follows, until [start()] is called
    again. *)
Theorem stop_while_idle_is_final w es w' :
  (forall h, state_of h w = Some Waiting -> _timer (self w) = Some h) ->
  (forall h, state_of h w <> Some Running) ->
  forallb (fun e => negb (is_call_start e)) es = true ->
  run es (stop w) = Some w' ->
  forallb (fun e => negb (is_fire e)) es = true /\
  _stopped (self w') = true /\
  waiting w' = [].
Proof.
  intros Hheld Hnorun Hns Hrun.
  assert (Hq : quiescent (stop w)).
  { intros h. rewrite state_of_stop.
    destruct (decide _) as [_|N]; [done|].
    split; [|apply Hnorun]. intros E. apply N. split; [by apply Hheld | done]. }
  destruct (idle_run es (stop w) w' Hq Hns Hrun) as (Hnf & Hq' & Hst).
  split; [done|]. split; [by apply Hst|].
  destruct (waiting w') as [|h l] eqn:E; [done|].
  assert (Hh : h ∈ waiting w') by (rewrite E; left).
  apply elem_of_waiting in Hh. by destruct (Hq' h).
Qed.

(** X5.  A one-shot timer fires once: its first thread runs the callback,
    the timer is then stopped with no handle and no deadline, whether the
    callback returned or raised, and nothing fires afterwards unless
    [start()] is called. *)
Theorem one_shot_fires_once itv now (o : outcome) now' :
  exists w1,
    run [Fire 0; Return 0 o now'] (init itv true false now) = Some w1 /\
    self w1 = mkCustomTimer itv false None true None /\
    waiting w1 = [] /\
    forall es w',
      forallb (fun e => negb (is_call_start e)) es = true ->
      run es w1 = Some w' ->
      forallb (fun e => negb (is_fire e)) es = true /\
      _stopped (self w') = true.
Proof.
  eexists. split; [reflexivity|]. split; [reflexivity|]. split; [reflexivity|].
  intros es w' Hns Hrun.
  match type of Hrun with run _ ?w1 = _ =>
    assert (Hq : quiescent w1) end.
  { intros [|h]; unfold state_of; simpl; split; discriminate. }
  destruct (idle_run es _ w' Hq Hns Hrun) as (? & _ & Hst).
  split; [done|]. by apply Hst.
Qed.

(** X7.  Restarting a repeating timer while its callback runs doubles the
    schedule: after [stop()] and [start()] during the callback, the end of
    the callback arms a second thread.  The timer holds only the second;
    the first keeps sleeping and a later [stop()] does not cancel it. *)
Theorem restart_during_callback_orphans_thread w h (o : outcome) now now' :
  repeat (self w) = true ->
  state_of h w = Some Running ->
  exists w',
    run [CallStop; CallStart now; Return h o now'] w = Some w' /\
    _timer (self w') = Some (S (length (threads w))) /\
    length (threads w) ∈ waiting w' /\
    S (length (threads w)) ∈ waiting w' /\
    length (threads w) ∈ waiting (stop w').
Proof.
  intros Hrep Hrun.
  assert (Hlt : (h < length (threads w))%nat) by by eapply state_of_lt.
  set (w2 := start false now (stop w)).
  assert (Hlen2 : length (threads w2) = S (length (threads w))).
  { unfold w2. rewrite length_start_armed by done. by rewrite length_stop. }
  assert (Hnew2 : state_of (length (threads w)) w2 = Some Waiting).
  { unfold w2. rewrite state_of_start_armed, length_stop by done.
    by destruct (decide _). }
  assert (Hh2 : state_of h w2 = Some Running).
  { unfold w2. rewrite state_of_start_armed, length_stop by done.
    destruct (decide _); [lia|].
    rewrite state_of_stop, Hrun. by destruct (decide _) as [[_ ?]|]. }
  assert (Hrep2 : repeat (self w2) = true).
  { unfold w2. by rewrite self_start_armed. }
  set (w3 := mark h Finished (start true now' w2)).
  assert (Hst3 : forall k, state_of k w3 =
            if decide (h = k) then Some Finished
            else if decide (k = S (length (threads w))) then Some Waiting
            else state_of k w2).
  { intros k. unfold w3. rewrite state_of_mark, !state_of_start_armed, Hlen2 by done.
    destruct (decide (h = k)) as [<-|]; [|done].
    destruct (decide _); [lia|]. by rewrite Hh2. }
  exists w3. split.
  { cbn [run step]. fold w2. rewrite Hh2.
    unfold _run, _run_finally. cbn [fst]. by rewrite Hrep2. }
  split.
  { unfold w3. cbn [mark self]. rewrite self_start_armed by done.
    cbn [_timer]. by rewrite Hlen2. }
  split.
  { apply elem_of_waiting. rewrite Hst3.
    destruct (decide _); [lia|]. by destruct (decide _); [lia|]. }
  split.
  { apply elem_of_waiting. rewrite Hst3.
    destruct (decide _); [lia|]. by destruct (decide _). }
  apply elem_of_waiting. rewrite state_of_stop.
  destruct (decide _) as [[E _]|_].
  - unfold w3 in E. cbn [mark self] in E. rewrite self_start_armed in E by done.
    cbn [_timer] in E. rewrite Hlen2 in E. inversion E. lia.
  - rewrite Hst3. destruct (decide _); [lia|]. by destruct (decide _); [lia|].
Qed.

End TimerRuns.

(** ** Further properties on integer clock ticks *)

(** X2.  A thread armed by [start] sleeps exactly until the deadline, or
    not at all when the deadline has already passed (a callback that
    overran its interval): the delay is never negative and
    [now + delay = max(now, deadline)]. *)
Theorem sleep_until_deadline (w : World Z) (fr : bool) (now : Z) :
  fr || _stopped (self w) = true ->
  exists d delay,
    next_call (self (start fr now w)) = Some d /\
    threads (start fr now w) !! length (threads w) = Some (mkTimer delay Waiting) /\
    0 <= delay /\
    now + delay = Z.max now d.
Proof.
  intros Hg. rewrite start_armed by done. cbn [self threads next_call].
  eexists. eexists. split; [reflexivity|].
  split; [by rewrite list_lookup_middle|].
  unfold py_max0. cbn [num_ltb num_sub num_zero PyNum_Z].
  destruct (Z.ltb_spec 0 (next_deadline now (self w) - now)); lia.
Qed.

Lemma sleep_until_deadline_witness :
  exists d delay,
    next_call (self (start true 23 (mkWorld (mkCustomTimer 5 true (Some 0%nat) false (Some 15))
                                            [mkTimer 5 Running]))) = Some d /\
    threads (start true 23 (mkWorld (mkCustomTimer 5 true (Some 0%nat) false (Some 15))
                                    [mkTimer 5 Running])) !! 1%nat
      = Some (mkTimer delay Waiting) /\
    0 <= delay /\
    23 + delay = Z.max 23 d.
Proof.
  exact (sleep_until_deadline
           (mkWorld (mkCustomTimer 5 true (Some 0%nat) false (Some 15))
                    [mkTimer 5 Running]) true 23 eq_refl).
Defined.

Lemma fixed_rate_cadence_witness :
  exists w,
    run (firings 0 3 (fun k => if Nat.even k then Raised else Returned)
                     (fun k => 16 + 7 * Z.of_nat k))
        (init 5 true true 10) = Some w /\
    next_call (self w) = Some (10 + (Z.of_nat 3 + 1) * 5) /\
    _timer (self w) = Some 3%nat /\
    (forall h, state_of h w = Some Waiting <-> h = 3%nat).
Proof.
  exact (fixed_rate_cadence 5 10
           (fun k => if Nat.even k then Raised else Returned)
           (fun k => 16 + 7 * Z.of_nat k)
           ltac:(lia) ltac:(lia) 3).
Defined.

Lemma run_keeps_consistent_witness :
  consistent (mkWorld (mkCustomTimer 5 true (Some 1%nat) false (Some 22))
                      [mkTimer 5 Finished; mkTimer 5 Waiting]).
Proof.
  exact (run_keeps_consistent 5 true true 10
           [Fire 0; CallStop; Return 0 Returned 17] _ eq_refl).
Defined.

Lemma thread_fires_at_most_once_witness :
  (fire_count 0 [Fire 0; CallStop; Return 0 Returned 17%Z; Fire 1] <= 1)%nat.
Proof.
  exact (thread_fires_at_most_once
           [Fire 0; CallStop; Return 0 Returned 17; Fire 1]
           (init 5 true true 10) _ 0%nat eq_refl).
Defined.

Lemma stop_while_idle_is_final_witness :
  forallb (fun e => negb (is_fire e)) [@CallStop Z; CallStop] = true /\
  _stopped (self (stop (init 5 true true 10))) = true /\
  waiting (stop (init 5 true true 10)) = [].
Proof.
  refine (stop_while_idle_is_final (init 5 true true 10) [CallStop; CallStop]
            (stop (init 5 true true 10)) _ _ eq_refl eq_refl).
  - intros [|h]; [reflexivity | discriminate].
  - intros [|h]; discriminate.
Defined.

Lemma one_shot_fires_once_witness :
  exists w1,
    run [Fire 0; Return 0 Raised 16] (init 5 true false 10) = Some w1 /\
    self w1 = mkCustomTimer 5 false None true None /\
    waiting w1 = [].
Proof.
  destruct (one_shot_fires_once 5 10 Raised 16) as (w1 & Hrun & Hself & Hw & _).
  exists w1. repeat split; assumption.
Defined.

Lemma restart_during_callback_orphans_thread_witness :
  exists w',
    run [CallStop; CallStart 16; Return 0 Returned 17]
        (mkWorld (mkCustomTimer 5 true (Some 0%nat) false (Some 15))
                 [mkTimer 5 Running]) = Some w' /\
    _timer (self w') = Some 2%nat /\
    1%nat ∈ waiting w' /\
    2%nat ∈ waiting w' /\
    1%nat ∈ waiting (stop w').
Proof.
  exact (restart_during_callback_orphans_thread
           (mkWorld (mkCustomTimer 5 true (Some 0%nat) false (Some 15))
                    [mkTimer 5 Running]) 0%nat Returned 16 17 eq_refl eq_refl).
Defined.

(** * Further properties of the key handlers *)

Lemma lookup_key_Forall (P : M unit -> Prop) (key : string)
    (m : list (string * M unit)) (f : M unit) :
  Forall (fun kf => P (snd kf)) m -> lookup_key key m = Some f -> P f.
Proof.
  induction 1 as [|[k g] m Hg _ IH]; simpl; [discriminate|].
  destruct (String.eqb key k); [by intros [= <-] | exact IH].
Qed.

(** To show something of every key press it is enough to show it of doing
    nothing and of each entry of [key_mapping]. *)
Lemma keypress_cases (P : res unit * App * list effect -> Prop)
    (env : Env) (key : string) (a : App) :
  P (Ok tt, a, []) ->
  Forall (fun kf => P (snd kf a)) (key_mapping env) ->
  P (handle_keypress env key a).
Proof.
  intros Hnone Hall. unfold handle_keypress.
  destruct (lookup_key (upper key) (key_mapping env)) as [f|] eqn:E; [|exact Hnone].
  by apply (lookup_key_Forall (fun f => P (f a)) _ _ _ Hall E).
Qed.

Lemma keyrelease_cases (P : res unit * App * list effect -> Prop)
    (key : string) (a : App) :
  P (Ok tt, a, []) ->
  P (_set_motion (Some 0) None a) ->
  P (_set_motion None (Some 0) a) ->
  P (handle_keyrelease key a).
Proof.
  intros Hnone Hv Hr. unfold handle_keyrelease.
  destruct (_ || _)%bool; [exact Hv|]. by destruct (_ || _)%bool.
Qed.

Lemma set_motion_disconnected (v0 r0 : Z) (t : option nat) (act : bool)
    (tms : list (World Q)) (v r : option Z) :
  _set_motion v r (mkApp PyNone v0 r0 t act tms) =
  (Ok tt, mkApp PyNone v0 r0 t act tms, [ShowInfo "Error" "Robot Not Connected!"]).
Proof. reflexivity. Qed.

(** X9.  With no robot connected, no key press and no key release changes
    the application state or calls a method of the robot, whatever the key:
    also the mode keys, which fail, leave everything as it was. *)
Theorem disconnected_keys_change_nothing (env : Env) (key : string) (a : App) :
  robot a = PyNone ->
  (state_after (handle_keypress env key a) = a /\
   forallb (fun e => negb (is_robot_io e)) (effects_of (handle_keypress env key a)) = true) /\
  (state_after (handle_keyrelease key a) = a /\
   forallb (fun e => negb (is_robot_io e)) (effects_of (handle_keyrelease key a)) = true).
Proof.
  intros Hrob. destruct a as [rb v r t act tms]. simpl in Hrob; subst rb.
  split.
  - apply (keypress_cases (fun x => state_after x = _ /\ forallb _ (effects_of x) = true));
      [done|].
    destruct env as [clk [] sens]; repeat constructor.
  - apply (keyrelease_cases (fun x => state_after x = _ /\ forallb _ (effects_of x) = true));
      done.
Qed.

(** Settles [motion_result_ok] of a handler applied to a closed enough
    state by evaluating it. *)
Ltac solve_motion_result :=
  cbv beta; cbn [snd];
  match goal with
  | |- motion_result_ok ?x =>
      let y := eval vm_compute in x in change (motion_result_ok y)
  end;
  split;
  [ unfold motion_ok, state_after, VELOCITYCHANGE, ROTATIONCHANGE;
    cbn [fst snd velocity rotation]; lia
  | intros l r0 Hin; cbn [effects_of snd In] in Hin;
    repeat (destruct Hin as [Hin|Hin]; [try discriminate Hin|]);
    try contradiction;
    inversion Hin; subst; cbn [state_after fst snd velocity rotation]; lia ].

(** X11.  The keys keep the axes within their three values each (0 and
    plus or minus the change constant), and every [drive_direct(left, right)]
    they send is exact for the stored pair, with no rounding:
    [left + right = 2 * velocity], [right - left = rotation], and both wheel
    speeds within 350 of zero. *)
Theorem keys_keep_motion_bounded (env : Env) (key : string) (a : App) :
  motion_ok a ->
  motion_result_ok (handle_keypress env key a) /\
  motion_result_ok (handle_keyrelease key a).
Proof.
  destruct a as [rb v r t act tms]. unfold motion_ok at 1.
  cbn [velocity rotation]. unfold VELOCITYCHANGE, ROTATIONCHANGE.
  intros [Hv Hr]. destruct env as [clk cq sens].
  split.
  - destruct Hv as [->|[->| ->]], Hr as [->|[->| ->]], rb, cq, act, t;
      (apply keypress_cases;
       [|unfold key_mapping; repeat (apply Forall_cons_2; [|]); try apply Forall_nil_2]);
      solve_motion_result.
  - apply keyrelease_cases;
      destruct Hv as [->|[->| ->]], Hr as [->|[->| ->]], rb;
      solve_motion_result.
Qed.

(** Settles [poll_result_ok] by unfolding the handler. *)
Ltac solve_poll_result :=
  cbv beta; cbn [snd];
  unfold poll_result_ok, poll_ok, state_after;
  run_handler;
  rewrite ?length_app, ?length_alter; cbn [length]; try lia; try done.

(** X12.  Every key press and release keeps the polling flag and the timer
    reference in step: the flag is set exactly when a timer is referenced,
    the reference is to a timer that exists, and no timer object is ever
    removed. *)
Theorem keys_keep_poll_ok (env : Env) (key : string) (a : App) :
  poll_ok a ->
  poll_result_ok a (handle_keypress env key a) /\
  poll_result_ok a (handle_keyrelease key a).
Proof.
  destruct a as [rb v r t act tms]. unfold poll_ok at 1.
  cbn [sensor_poll_timer sensor_polling_active timers].
  intros Hp. destruct env as [clk cq sens].
  assert (Hcases : (exists n, t = Some n /\ act = true /\ (n < length tms)%nat)
                   \/ (t = None /\ act = false)).
  { destruct t as [n|]; [left; exists n; tauto | right; tauto]. }
  clear Hp. split.
  - destruct Hcases as [(n & -> & -> & Hn) | [-> ->]]; destruct rb, cq;
      (apply keypress_cases;
       [|unfold key_mapping; repeat (apply Forall_cons_2; [|]); try apply Forall_nil_2]).
    all: solve_poll_result.
  - destruct Hcases as [(n & -> & -> & Hn) | [-> ->]]; destruct rb;
      apply keyrelease_cases; solve_poll_result.
Qed.

(** X10.  A key with an ASCII keysym whose upper-cased name is not one of
    the thirteen of [key_mapping] is ignored on press and on release:
    nothing changes, nothing is shown, logged or sent.  D, which the help
    text lists as Dock, is such a key. *)
Theorem unmapped_key_ignored (env : Env) (key : string) (a : App) :
  ascii_only key = true ->
  ~ In (upper key)
       ["P"; "S"; "F"; "C"; "R"; "SPACE"; "B"; "O";
        "UP"; "DOWN"; "LEFT"; "RIGHT"; "ESCAPE"]%string ->
  handle_keypress env key a = (Ok tt, a, []) /\
  handle_keyrelease key a = (Ok tt, a, []).
Proof.
  intros _ Hnot.
  assert (Hne : forall k, In k ["P"; "S"; "F"; "C"; "R"; "SPACE"; "B"; "O";
        "UP"; "DOWN"; "LEFT"; "RIGHT"; "ESCAPE"]%string -> String.eqb (upper key) k = false).
  { intros k Hk. apply String.eqb_neq. intros E. apply Hnot. by rewrite E. }
  unfold handle_keypress, handle_keyrelease, key_mapping, lookup_key.
  rewrite !Hne by (simpl; tauto). done.
Qed.

(** X13.  Switching polling on and straight off again on a connected
    application, before the new timer's first poll has fired, restores its
    fields; the timer created in between is left stopped, with no handle, no
    deadline and no thread armed. *)
Theorem toggle_twice_stops_timer (env env' : Env) (port : string) (v r : Z)
    (tms : list (World Q)) :
  exists a1 a2 w,
    toggle_sensor_polling env (mkApp (Create2 port) v r None false tms) =
      (Ok tt, a1, [LogInfo "Sensor polling started."]) /\
    toggle_sensor_polling env' a1 =
      (Ok tt, a2, [LogInfo "Sensor polling stopped."]) /\
    a2 = mkApp (Create2 port) v r None false (tms ++ [w]) /\
    self w = mkCustomTimer (1 # 2)%Q true None true None /\
    waiting w = [].
Proof.
  eexists.
  exists (mkApp (Create2 port) v r None false
                (tms ++ [stop (init (1 # 2)%Q true true (clock env))])).
  exists (stop (init (1 # 2)%Q true true (clock env))).
  split; [reflexivity|]. split.
  - run_handler. do 3 f_equal.
    rewrite <- (Nat.add_0_r (length tms)). by rewrite alter_app_r.
  - split; [reflexivity|]. split; reflexivity.
Qed.

(** X14.  [on_quit] calls no method of the robot, whatever the answer and
    the state (no stop command is sent even while an axis is non-zero), and
    leaves both axes, the polling flag, the timer reference and the timers
    as they are. *)
Theorem on_quit_sends_nothing (env : Env) (a : App) :
  forallb (fun e => negb (is_robot_io e)) (effects_of (on_quit env a)) = true /\
  velocity (state_after (on_quit env a)) = velocity a /\
  rotation (state_after (on_quit env a)) = rotation a /\
  sensor_poll_timer (state_after (on_quit env a)) = sensor_poll_timer a /\
  sensor_polling_active (state_after (on_quit env a)) = sensor_polling_active a /\
  timers (state_after (on_quit env a)) = timers a.
Proof.
  destruct a as [[] v r t act tms], env as [clk [] sens]; repeat split.
Qed.

(** X15.  [on_connect] either leaves the application as it is, or, from
    the disconnected state and without raising, sets the robot to a
    [Create2] on a port for which the constructor returned: the single port
    that could be opened, or else the non-empty selection of the dialog,
    which is shown only when at least two ports were found.  Nothing but the
    robot attribute changes. *)
Theorem on_connect_result (ce : ConnEnv) (a : App) :
  snd (fst (on_connect ce a)) = a \/
  (robot a = PyNone /\
   fst (fst (on_connect ce a)) = None /\
   exists port,
     snd (fst (on_connect ce a)) = set_robot (Create2 port) a /\
     create2_fails ce port = None /\
     ((_get_serial_ports ce = Some [port] /\ opens ce port = true) \/
      (selected_port ce = Some port /\ port <> EmptyString /\
       exists ports, _get_serial_ports ce = Some ports /\
                     (2 <= length ports)%nat))).
Proof.
  unfold on_connect. destruct (robot a) eqn:Hrob; [by left| |by left].
  destruct (_get_serial_ports ce) as [[|p [|q ports]]|] eqn:Hports;
    [by left| | |by left].
  - unfold connect_to. destruct (create2_fails ce p) eqn:Hc; [by left|].
    right. split; [done|]. split; [done|]. exists p.
    split; [done|]. split; [done|]. left. split; [done|].
    unfold _get_serial_ports in Hports.
    destruct (candidate_ports ce) as [cands|]; [|discriminate].
    injection Hports as Hf.
    assert (Hin : In p (List.filter (opens ce) cands)) by (rewrite Hf; by left).
    by apply List.filter_In in Hin as [_ ?].
  - destruct (selected_port ce) as [[|c s]|] eqn:Hsel; [by left| |by left].
    unfold connect_to. destruct (create2_fails ce (String c s)) eqn:Hc; [by left|].
    right. split; [done|]. split; [done|]. exists (String c s).
    split; [done|]. split; [done|]. right. split; [done|]. split; [done|].
    eexists. split; [reflexivity|]. simpl. lia.
Qed.

(** X16.  On a platform whose name starts with none of win, linux, cygwin
    and darwin, [on_connect] on a disconnected application does not report
    the failure to the operator: the error is logged and then
    [UnboundLocalError] leaves the handler, because the [except] clause
    formats [port], which was never assigned. *)
Theorem on_connect_unsupported_platform (ce : ConnEnv) (a : App) :
  robot a = PyNone ->
  String.prefix "win" (platform ce) = false ->
  String.prefix "linux" (platform ce) = false ->
  String.prefix "cygwin" (platform ce) = false ->
  String.prefix "darwin" (platform ce) = false ->
  on_connect ce a =
  (Some UnboundLocalError, a,
   [LogError "Failed to connect: Unsupported platform"]).
Proof.
  intros Hrob Hw Hl Hc Hd.
  unfold on_connect, _get_serial_ports, candidate_ports.
  by rewrite Hrob, Hw, Hl, Hc, Hd.
Qed.

(** X17.  On Windows [_get_serial_ports] returns exactly the names COM1 to
    COM256 that can be opened: COM0 and names above COM256 are never
    returned. *)
Theorem windows_ports_are_com_1_to_256 (ce : ConnEnv) :
  String.prefix "win" (platform ce) = true ->
  exists ports,
    _get_serial_ports ce = Some ports /\
    forall p, In p ports <->
      opens ce p = true /\
      exists n, (1 <= n <= 256)%nat /\ p = ("COM" ++ py_str n)%string.
Proof.
  intros Hw. unfold _get_serial_ports, candidate_ports. rewrite Hw.
  eexists. split; [reflexivity|]. intros p.
  rewrite List.filter_In, List.in_map_iff. split.
  - intros [(i & <- & Hi) Ho]. apply List.in_seq in Hi.
    split; [done|]. exists (i + 1)%nat. split; [lia | done].
  - intros [Ho (n & Hn & ->)]. split; [|done].
    exists (n - 1)%nat. split; [f_equal; f_equal; lia | apply List.in_seq; lia].
Qed.

(** *** Instances *)

Lemma disconnected_keys_change_nothing_witness :
  state_after (handle_keypress (mkEnv 10 true "bumps: 0") "p" new_app) = new_app /\
  state_after (handle_keyrelease "Up" new_app) = new_app.
Proof.
  destruct (disconnected_keys_change_nothing
              (mkEnv 10 true "bumps: 0") "p" new_app eq_refl) as [[Hp _] _].
  destruct (disconnected_keys_change_nothing
              (mkEnv 10 true "bumps: 0") "Up" new_app eq_refl) as [_ [Hr _]].
  split; assumption.
Defined.

Lemma unmapped_key_ignored_witness :
  handle_keypress (mkEnv 10 true "bumps: 0") "d"
                  (mkApp (Create2 "COM3") 200 0 None false []) =
  (Ok tt, mkApp (Create2 "COM3") 200 0 None false [], []).
Proof.
  refine (proj1 (unmapped_key_ignored (mkEnv 10 true "bumps: 0") "d"
                   (mkApp (Create2 "COM3") 200 0 None false []) eq_refl _)).
  simpl. intros H.
  repeat (destruct H as [H|H]; [discriminate H|]). exact H.
Defined.

Lemma keys_keep_motion_bounded_witness :
  motion_result_ok
    (handle_keypress (mkEnv 10 true "bumps: 0") "Right"
                     (mkApp (Create2 "COM3") (-200) 0 None false [])).
Proof.
  refine (proj1 (keys_keep_motion_bounded (mkEnv 10 true "bumps: 0") "Right"
                   (mkApp (Create2 "COM3") (-200) 0 None false []) _)).
  unfold motion_ok, VELOCITYCHANGE, ROTATIONCHANGE. simpl. lia.
Defined.

Lemma keys_keep_poll_ok_witness :
  poll_result_ok
    (mkApp (Create2 "COM3") 0 0 None false [])
    (handle_keypress (mkEnv 10 true "bumps: 0") "o"
                     (mkApp (Create2 "COM3") 0 0 None false [])).
Proof.
  exact (proj1 (keys_keep_poll_ok (mkEnv 10 true "bumps: 0") "o"
                  (mkApp (Create2 "COM3") 0 0 None false []) eq_refl)).
Defined.

Lemma on_connect_unsupported_platform_witness :
  on_connect (mkConnEnv "sunos5" (fun _ => []) (fun _ => true) None (fun _ => None))
             new_app =
  (Some UnboundLocalError, new_app,
   [LogError "Failed to connect: Unsupported platform"]).
Proof.
  exact (on_connect_unsupported_platform
           (mkConnEnv "sunos5" (fun _ => []) (fun _ => true) None (fun _ => None))
           new_app eq_refl eq_refl eq_refl eq_refl eq_refl).
Defined.

Lemma windows_ports_are_com_1_to_256_witness :
  exists ports,
    _get_serial_ports
      (mkConnEnv "win32" (fun _ => []) (String.eqb "COM7") None (fun _ => None))
      = Some ports /\
    In "COM7"%string ports.
Proof.
  destruct (windows_ports_are_com_1_to_256
              (mkConnEnv "win32" (fun _ => []) (String.eqb "COM7") None (fun _ => None))
              eq_refl) as (ports & Hports & Hin).
  exists ports. split; [exact Hports|].
  apply Hin. split; [reflexivity|]. exists 7%nat. split; [lia | reflexivity].
Defined.

Lemma guarded_keys_rejected_witness :
  handle_keypress (mkEnv 10 true "bumps: 0") "space" new_app =
  (Ok tt, new_app, [ShowInfo "Error" "Robot Not Connected!"]).
Proof.
  refine (guarded_keys_rejected (mkEnv 10 true "bumps: 0") 0 0 None false []
            "space" _).
  simpl. tauto.
Defined.

Lemma stop_during_callback_rearms_witness :
  exists w',
    run [CallStop; Return 0 Raised 17]
        (mkWorld (mkCustomTimer 5 true (Some 0%nat) false (Some 15))
                 [mkTimer 5 Running]) = Some w' /\
    _stopped (self w') = false /\
    next_call (self w') = Some 22 /\
    1%nat ∈ waiting w'.
Proof.
  exact (stop_during_callback_rearms
           (mkWorld (mkCustomTimer 5 true (Some 0%nat) false (Some 15))
                    [mkTimer 5 Running]) 0%nat Raised 17 eq_refl eq_refl).
Defined.
